(** * MockProvider: the Apex call-interception mock of apex-mocking-framework

    A shallow embedding of the Apex class [MockProvider] (a
    [System.StubProvider]) together with the properties its design
    document states about it.

    Apex features that matter for the class and how they are rendered:
    - every Apex variable is nullable: the [Boolean] and [String] fields are
      [option]s, and a field without initialiser holds [null];
    - [if (b)] on a [Boolean] that holds [null] raises
      [System.NullPointerException];
    - [Map<String, Object>] accepts the [null] key, and [Map.get] answers
      [null] for a key that is absent;
    - [List.get] raises [System.ListException] out of range;
    - the object is mutated in place: methods are computations in a state
      and exception monad over the three fields. *)

From Stdlib Require Import Ascii.
From stdpp Require Import base option strings list gmap pretty.

(** ** Values *)

(** An Apex [Object]: [null], the primitives the test code passes around,
    and references to other instances. An instance carries the text its
    [toString()] gives, which is what string conversion uses. *)
Inductive Object : Type :=
  | null
  | OBoolean (b : bool)
  | OInteger (i : Z)
  | OString (s : string)
  | OInstance (ref : N) (text : string).

#[global] Instance Object_eq_dec : EqDecision Object.
Proof. solve_decision. Defined.

(** [System.Type]: only [getName()] is used. *)
Record Type_ : Type := { getName : string }.

(** ** The instance state *)

Record MockProvider : Type := {
  mockReturnValues : gmap (option string) Object;
  isSettingMockValue : option bool;
  serializedMethodCall : option string
}.

(** [new MockProvider()]: the constructor allocates the map; the two other
    fields have no initialiser. *)
Definition new_MockProvider : MockProvider :=
  {| mockReturnValues := ∅;
     isSettingMockValue := None;
     serializedMethodCall := None |}.

(** ** Computations: state and exceptions *)

Inductive Exception : Type :=
  | NullPointerException
  | ListException.

Inductive Outcome (A : Type) : Type :=
  | Return (a : A)
  | Throw (e : Exception).
Arguments Return {A} a.
Arguments Throw {A} e.

Definition Apex (A : Type) : Type := MockProvider → Outcome A * MockProvider.

Definition Apex_ret {A} (a : A) : Apex A := λ this, (Return a, this).

Definition Apex_bind {A B} (f : A → Apex B) (c : Apex A) : Apex B :=
  λ this,
    match c this with
    | (Return a, this') => f a this'
    | (Throw e, this') => (Throw e, this')
    end.

Definition throw {A} (e : Exception) : Apex A := λ this, (Throw e, this).

#[global] Instance Apex_mret : MRet Apex := @Apex_ret.
#[global] Instance Apex_mbind : MBind Apex := @Apex_bind.

(** Field reads and writes on [this]. *)
Definition read {A} (field : MockProvider → A) : Apex A :=
  λ this, (Return (field this), this).

Definition set_mockReturnValues (m : gmap (option string) Object) : Apex unit :=
  λ this, (Return (),
           {| mockReturnValues := m;
              isSettingMockValue := isSettingMockValue this;
              serializedMethodCall := serializedMethodCall this |}).

Definition set_isSettingMockValue (b : option bool) : Apex unit :=
  λ this, (Return (),
           {| mockReturnValues := mockReturnValues this;
              isSettingMockValue := b;
              serializedMethodCall := serializedMethodCall this |}).

Definition set_serializedMethodCall (s : option string) : Apex unit :=
  λ this, (Return (),
           {| mockReturnValues := mockReturnValues this;
              isSettingMockValue := isSettingMockValue this;
              serializedMethodCall := s |}).

(** A [Boolean] used as a condition: [null] raises. *)
Definition condition (b : option bool) : Apex bool :=
  match b with
  | Some v => mret v
  | None => throw NullPointerException
  end.

(** [List.get(i)]. *)
Definition List_get {A} (l : list A) (i : nat) : Apex A :=
  match l !! i with
  | Some x => mret x
  | None => throw ListException
  end.

(** [Map.get(key)]: [null] when the key is absent. *)
Definition Map_get (m : gmap (option string) Object) (key : option string) : Object :=
  default null (m !! key).

(** [Map.put(key, value)]. *)
Definition Map_put (m : gmap (option string) Object) (key : option string)
    (value : Object) : gmap (option string) Object :=
  <[key := value]> m.

(** [System.debug(msg)] writes to the debug log, which is no part of the
    instance. *)
Definition System_debug (msg : string) : Apex unit := mret ().

(** [for (integer i = start; i < start + count; i++) body]. *)
Fixpoint for_loop (start count : nat) (body : nat → Apex unit) : Apex unit :=
  match count with
  | O => mret ()
  | S count' => body start ;; for_loop (S start) count' body
  end.

(** The arguments the Stub API hands to [handleMethodCall] for one call on
    the stub. *)
Record Invocation : Type := {
  stubbedObject : Object;
  stubbedMethodName : string;
  returnType : Type_;
  listOfParamTypes : list Type_;
  listOfParamNames : list string;
  listOfArgs : list Object
}.

(** The Stub API passes one type, one name and one value per parameter. *)
Definition wellFormed (c : Invocation) : Prop :=
  length (listOfParamTypes c) = length (listOfParamNames c) ∧
  length (listOfArgs c) = length (listOfParamNames c).

#[global] Instance wellFormed_dec c : Decision (wellFormed c).
Proof. unfold wellFormed. apply _. Defined.

(** The text for [null] in the concrete runs that close the development;
    no [null] argument occurs in them. *)
Definition exampleNullText : string := "null".

Section Platform.

(** The text string conversion gives [null] inside [String.join]; the
    class does not depend on which it is. *)
Variable nullText : string.

(** ** String conversion of the platform *)

Definition String_valueOf (o : Object) : string :=
  match o with
  | null => nullText
  | OBoolean b => if b then "true" else "false"
  | OInteger i => pretty i
  | OString s => s
  | OInstance _ text => text
  end.

(** [String.join(iterableObj, separator)]. *)
Fixpoint String_join (iterableObj : list Object) (separator : string) : string :=
  match iterableObj with
  | [] => ""
  | x :: rest =>
      match rest with
      | [] => String_valueOf x
      | _ :: _ => String_valueOf x +:+ separator +:+ String_join rest separator
      end
  end.

(** A list in a string concatenation, as the debug statement prints it. *)
Definition List_toString (l : list Object) : string :=
  "(" +:+ String_join l ", " +:+ ")".

(** ** The class *)

Definition startSettingMockValue : Apex unit :=
  set_isSettingMockValue (Some true).

Definition stopSettingMockValue : Apex unit :=
  set_isSettingMockValue (Some false).

(** [setMock()] returns [this]: the caller goes on with the same instance,
    which the monad threads. *)
Definition setMock : Apex unit :=
  startSettingMockValue.

Definition mockReturnValue (returnValue mockReturnValue : Object) : Apex unit :=
  key ← read serializedMethodCall;
  m ← read mockReturnValues;
  set_mockReturnValues (Map_put m key mockReturnValue) ;;
  set_serializedMethodCall None ;;
  stopSettingMockValue.

Definition serializeMethodCall (stubbedMethodName : string)
    (listOfArgs : list Object) : string :=
  stubbedMethodName +:+ "(" +:+ String_join listOfArgs "," +:+ ")".

Definition handleMethodCall (stubbedObject : Object) (stubbedMethodName : string)
    (returnType : Type_) (listOfParamTypes : list Type_)
    (listOfParamNames : list string) (listOfArgs : list Object) : Apex Object :=
  System_debug ("Name of stubbed method: " +:+ stubbedMethodName) ;;
  System_debug ("Return type of stubbed method: " +:+ getName returnType) ;;
  for_loop 0 (length listOfParamNames) (λ i,
    name ← List_get listOfParamNames i;
    System_debug ("parameter name: " +:+ name) ;;
    type ← List_get listOfParamTypes i;
    System_debug ("  parameter type: " +:+ getName type)) ;;
  System_debug ("number of parameters passed into the mocked call: " +:+
                pretty (length listOfArgs)) ;;
  System_debug ("parameter(s) sent into the mocked call: " +:+
                List_toString listOfArgs) ;;
  let serializedMethodCall' := serializeMethodCall stubbedMethodName listOfArgs in
  flag ← read isSettingMockValue;
  recording ← condition flag;
  if recording : bool then
    set_serializedMethodCall (Some serializedMethodCall') ;;
    mret null
  else
    m ← read mockReturnValues;
    mret (Map_get m (Some serializedMethodCall')).

(** ** The stub *)

(** [Test.createStub(typeToMock, this)] gives an object every method call
    on which arrives at [handleMethodCall]. *)
Definition intercept (c : Invocation) : Apex Object :=
  handleMethodCall (stubbedObject c) (stubbedMethodName c) (returnType c)
    (listOfParamTypes c) (listOfParamNames c) (listOfArgs c).

(** The signature under which a call is recorded and looked up. *)
Definition signature (c : Invocation) : string :=
  serializeMethodCall (stubbedMethodName c) (listOfArgs c).

(** The configuration idiom of the test code,
    [mock.setMock().mockReturnValue(stub.m(a), v)]: [setMock()] runs first,
    then the argument [stub.m(a)] is evaluated, then [mockReturnValue]. *)
Definition configure (c : Invocation) (v : Object) : Apex unit :=
  setMock ;;
  placeholder ← intercept c;
  mockReturnValue placeholder v.

(** ** Usage sequences *)

(** What test code and code under test can do with a provider and its
    stub. *)
Inductive Action : Type :=
  | DoSetMock
  | DoCall (c : Invocation)
  | DoMockReturnValue (returnValue value : Object).

(** The instance after one action; an exception leaves the fields as they
    were when it was raised. *)
Definition step (a : Action) (this : MockProvider) : MockProvider :=
  match a with
  | DoSetMock => (setMock this).2
  | DoCall c => (intercept c this).2
  | DoMockReturnValue returnValue value =>
      (mockReturnValue returnValue value this).2
  end.

Definition run (actions : list Action) (this : MockProvider) : MockProvider :=
  foldl (λ this' a, step a this') this actions.

Definition wellFormedAction (a : Action) : Prop :=
  match a with
  | DoCall c => wellFormed c
  | _ => True
  end.

(** The controller of the design document, following its words: it rests in
    [Idle]; [setMock()] takes it from [Idle] to [Recording]; a call observed
    while [Recording] is counted; [mockReturnValue] takes it back to [Idle].
    Here a [setMock()] that finds the controller recording leaves it as it
    is, so the count is the number of calls intercepted since the
    controller last left [Idle]. *)
Inductive Controller : Type :=
  | Idle
  | Recording (observed : nat).

Definition track (g : Controller) (a : Action) : Controller :=
  match a, g with
  | DoSetMock, Idle => Recording 0
  | DoSetMock, Recording n => Recording n
  | DoCall _, Idle => Idle
  | DoCall _, Recording n => Recording (S n)
  | DoMockReturnValue _ _, _ => Idle
  end.

Definition controller (actions : list Action) : Controller :=
  foldl track Idle actions.

(** The same controller when every [setMock()] enters [Recording] anew,
    also the one that finds the controller recording (the design document
    speaks of [Recording] entered while already [Recording]): the count is
    the number of calls intercepted since the latest [setMock()]. *)
Definition trackRestarting (g : Controller) (a : Action) : Controller :=
  match a, g with
  | DoSetMock, _ => Recording 0
  | DoCall _, Idle => Idle
  | DoCall _, Recording n => Recording (S n)
  | DoMockReturnValue _ _, _ => Idle
  end.

Definition controllerRestarting (actions : list Action) : Controller :=
  foldl trackRestarting Idle actions.

(** How the fields of the class relate to the controller [track]
    follows. *)
Definition RecordingInvariant (this : MockProvider) (g : Controller) : Prop :=
  match g with
  | Idle =>
      isSettingMockValue this ≠ Some true ∧ serializedMethodCall this = None
  | Recording n =>
      isSettingMockValue this = Some true ∧
      (serializedMethodCall this = None ↔ n = 0)
  end.

(** ** Shapes of usage sequences *)

Definition isCall (a : Action) : bool :=
  match a with
  | DoCall _ => true
  | _ => false
  end.

Definition isCommit (a : Action) : bool :=
  match a with
  | DoMockReturnValue _ _ => true
  | _ => false
  end.

(** The call intercepted last in a sequence, if there is one. *)
Definition lastCall (actions : list Action) : option Invocation :=
  foldl (λ found a, match a with DoCall c => Some c | _ => found end)
    None actions.

(** Whether a character occurs in a string. *)
Fixpoint occurs (a : Ascii.ascii) (s : string) : bool :=
  match s with
  | EmptyString => false
  | String b s' => if decide (a = b) then true else occurs a s'
  end.

(** ** Calls of the test code *)

(** The calls the test class of the repository makes on its stubs, as the
    Stub API presents them, and a two-argument call on integers. *)
Definition mockTodoService : Object := OInstance 1 "TodoService".
Definition mockTodoList : Object := OInstance 2 "(Todo__c:{Name=Sort Laundry})".

Definition getTodos_call : Invocation :=
  {| stubbedObject := mockTodoService;
     stubbedMethodName := "getTodos";
     returnType := {| getName := "List<Todo__c>" |};
     listOfParamTypes := [];
     listOfParamNames := [];
     listOfArgs := [] |}.

Definition addTodo_call (name : Object) : Invocation :=
  {| stubbedObject := mockTodoService;
     stubbedMethodName := "addTodo";
     returnType := {| getName := "void" |};
     listOfParamTypes := [{| getName := "String" |}];
     listOfParamNames := ["name"];
     listOfArgs := [name] |}.

Definition unary_call (m : string) (x : Object) : Invocation :=
  {| stubbedObject := mockTodoService;
     stubbedMethodName := m;
     returnType := {| getName := "Object" |};
     listOfParamTypes := [{| getName := "Object" |}];
     listOfParamNames := ["x"];
     listOfArgs := [x] |}.

Definition binary_call (m : string) (x y : Object) : Invocation :=
  {| stubbedObject := mockTodoService;
     stubbedMethodName := m;
     returnType := {| getName := "Object" |};
     listOfParamTypes := [{| getName := "Object" |}; {| getName := "Object" |}];
     listOfParamNames := ["x"; "y"];
     listOfArgs := [x; y] |}.

(** A provider on which [addTodo("milk")] has been configured to return
    [true]; it is idle. *)
Definition milkProvider : MockProvider :=
  (configure (addTodo_call (OString "milk")) (OBoolean true) new_MockProvider).2.

(** A provider on which [setMock()] has just been called. *)
Definition recordingProvider : MockProvider :=
  (setMock new_MockProvider).2.

(** A provider on which [getTodos()] has been configured to return [null]. *)
Definition nullProvider : MockProvider :=
  (configure getTodos_call null new_MockProvider).2.

(** * The classes around the provider *)

(** [Injector], [TodoService] and [TodoController], with the stubs that
    [createMock] makes. They need more than one instance: a world holds
    the provider of the test class, the class of every object allocated,
    and the static fields of [Injector] and [TodoController]. *)

(** The class of an object, for dispatch and casts: a real [Injector],
    a stub made by [Test.createStub] for a type, or another class known by
    its name (a list, an sObject, a real [TodoService]). *)
Inductive Class : Type :=
  | Injector_class
  | Stub_class (typeToMock : Type_)
  | Other_class (name : string).

Definition Class_name (c : Class) : string :=
  match c with
  | Injector_class => "Injector"
  | Stub_class typeToMock => getName typeToMock
  | Other_class name => name
  end.

Record World : Type := {
  mock : MockProvider;
  classes : gmap N Class;
  nextRef : N;
  Injector_injector : Object;
  Injector_mockInjector : Object;
  TodoController_self : option Object
}.

(** An exception of the provider, or [System.TypeException] from a cast. *)
Inductive Failure : Type :=
  | Raised (e : Exception)
  | TypeException.

Inductive Result (A : Type) : Type :=
  | Ok (a : A)
  | Fail (f : Failure).
#[global] Arguments Ok {A} a.
#[global] Arguments Fail {A} f.

Definition App (A : Type) : Type := World → Result A * World.

Definition App_ret {A} (a : A) : App A := λ w, (Ok a, w).

Definition App_bind {A B} (f : A → App B) (c : App A) : App B :=
  λ w,
    match c w with
    | (Ok a, w') => f a w'
    | (Fail e, w') => (Fail e, w')
    end.

#[global] Instance App_mret : MRet App := @App_ret.
#[global] Instance App_mbind : MBind App := @App_bind.

Definition fail {A} (f : Failure) : App A := λ w, (Fail f, w).

Definition readWorld {A} (field : World → A) : App A :=
  λ w, (Ok (field w), w).

Definition with_mock (this : MockProvider) (w : World) : World :=
  {| mock := this;
     classes := classes w;
     nextRef := nextRef w;
     Injector_injector := Injector_injector w;
     Injector_mockInjector := Injector_mockInjector w;
     TodoController_self := TodoController_self w |}.

Definition set_Injector_injector (o : Object) : App unit :=
  λ w, (Ok (),
        {| mock := mock w;
           classes := classes w;
           nextRef := nextRef w;
           Injector_injector := o;
           Injector_mockInjector := Injector_mockInjector w;
           TodoController_self := TodoController_self w |}).

Definition set_Injector_mockInjector (o : Object) : App unit :=
  λ w, (Ok (),
        {| mock := mock w;
           classes := classes w;
           nextRef := nextRef w;
           Injector_injector := Injector_injector w;
           Injector_mockInjector := o;
           TodoController_self := TodoController_self w |}).

Definition set_TodoController_self (todoService : Object) : App unit :=
  λ w, (Ok (),
        {| mock := mock w;
           classes := classes w;
           nextRef := nextRef w;
           Injector_injector := Injector_injector w;
           Injector_mockInjector := Injector_mockInjector w;
           TodoController_self := Some todoService |}).

(** A method of the provider run on the provider of the world. *)
Definition onMock {A} (c : Apex A) : App A :=
  λ w,
    match c (mock w) with
    | (Return a, this) => (Ok a, with_mock this w)
    | (Throw e, this) => (Fail (Raised e), with_mock this w)
    end.

(** The text [toString()] gives for a new object is the platform's. *)
Variable toStringOf : Class → N → string.

(** [new C()] for a class without constructor effects, and
    [Test.createStub]: a new object of the class. *)
Definition allocate (c : Class) : App Object :=
  λ w, (Ok (OInstance (nextRef w) (toStringOf c (nextRef w))),
        {| mock := mock w;
           classes := <[nextRef w := c]> (classes w);
           nextRef := N.succ (nextRef w);
           Injector_injector := Injector_injector w;
           Injector_mockInjector := Injector_mockInjector w;
           TodoController_self := TodoController_self w |}).

Definition classOf (w : World) (o : Object) : option Class :=
  match o with
  | OInstance ref _ => classes w !! ref
  | _ => None
  end.

(** Whether a value can stand where the type is expected: [null] always
    can, every value is an [Object], a primitive has its own type and an
    instance the type of its class (the classes here have no subclasses). *)
Definition conforms (w : World) (o : Object) (t : Type_) : bool :=
  match o with
  | null => true
  | OBoolean _ => bool_decide (getName t = "Boolean" ∨ getName t = "Object")
  | OInteger _ => bool_decide (getName t = "Integer" ∨ getName t = "Object")
  | OString _ => bool_decide (getName t = "String" ∨ getName t = "Object")
  | OInstance ref _ =>
      match classes w !! ref with
      | Some c =>
          bool_decide (Class_name c = getName t ∨ getName t = "Object")
      | None => false
      end
  end.

(** The cast [(T) o]. *)
Definition cast (t : Type_) (o : Object) : App Object :=
  λ w, if conforms w o t then (Ok o, w) else (Fail TypeException, w).

(** [createMock(typeToMock)] of the provider of the world. *)
Definition createMock (typeToMock : Type_) : App Object :=
  allocate (Stub_class typeToMock).

(** A method called on a stub: the Stub API calls [handleMethodCall] of
    the provider and converts what it returns to the return type. *)
Definition callStub (c : Invocation) : App Object :=
  v ← onMock (intercept c);
  cast (returnType c) v.

Definition Object_type : Type_ := {| getName := "Object" |}.
Definition String_type : Type_ := {| getName := "String" |}.
Definition void_type : Type_ := {| getName := "void" |}.
Definition Injector_type : Type_ := {| getName := "Injector" |}.
Definition TodoService_type : Type_ := {| getName := "TodoService" |}.
Definition TodoList_type : Type_ := {| getName := "List<Todo__c>" |}.

(** The calls on stubs of [Injector] and [TodoService], by the
    declarations of the methods. *)
Definition instantiate_on (stub className : Object) : Invocation :=
  {| stubbedObject := stub;
     stubbedMethodName := "instantiate";
     returnType := Object_type;
     listOfParamTypes := [String_type];
     listOfParamNames := ["className"];
     listOfArgs := [className] |}.

Definition getTodos_on (stub : Object) : Invocation :=
  {| stubbedObject := stub;
     stubbedMethodName := "getTodos";
     returnType := TodoList_type;
     listOfParamTypes := [];
     listOfParamNames := [];
     listOfArgs := [] |}.

Definition addTodo_on (stub name : Object) : Invocation :=
  {| stubbedObject := stub;
     stubbedMethodName := "addTodo";
     returnType := void_type;
     listOfParamTypes := [String_type];
     listOfParamNames := ["name"];
     listOfArgs := [name] |}.

(** Reflection and the database belong to the platform: [Type.forName]
    (answering [null] for an unknown name), [Type.newInstance], the query
    [[SELECT Id, Name FROM Todo__c]] and the insertion of a new [Todo__c]
    with a name. *)
Variable Type_forName : Object → App (option Type_).
Variable Type_newInstance : Type_ → App Object.
Variable SOQL_Todos : App Object.
Variable DML_insert_Todo : Object → App unit.

(** ** [Injector] *)

Definition Injector_instantiate (className : Object) : App Object :=
  t ← Type_forName className;
  match t with
  | Some t' => Type_newInstance t'
  | None => fail (Raised NullPointerException)
  end.

Definition Injector_getInjector : App Object :=
  mockInjector ← readWorld Injector_mockInjector;
  if decide (mockInjector ≠ null) then mret mockInjector
  else
    injector ← readWorld Injector_injector;
    (if decide (injector = null) then
       created ← allocate Injector_class;
       set_Injector_injector created
     else mret ()) ;;
    readWorld Injector_injector.

(** ** [TodoService] *)

Definition TodoService_getTodos : App Object := SOQL_Todos.

Definition TodoService_addTodo (name : Object) : App unit :=
  DML_insert_Todo name.

(** ** Method calls on what may be a stub *)

(** [receiver.instantiate(className)] on a value of type [Injector]:
    [null] raises, a stub goes to the provider, an [Injector] runs the
    method of the class. *)
Definition call_instantiate (receiver className : Object) : App Object :=
  λ w,
    match classOf w receiver with
    | Some (Stub_class _) => callStub (instantiate_on receiver className) w
    | Some _ => Injector_instantiate className w
    | None => (Fail (Raised NullPointerException), w)
    end.

Definition call_getTodos (receiver : Object) : App Object :=
  λ w,
    match classOf w receiver with
    | Some (Stub_class _) => callStub (getTodos_on receiver) w
    | Some _ => TodoService_getTodos w
    | None => (Fail (Raised NullPointerException), w)
    end.

(** [addTodo] is [void]: on a stub there is no value to convert. *)
Definition call_addTodo (receiver name : Object) : App unit :=
  λ w,
    match classOf w receiver with
    | Some (Stub_class _) =>
        (onMock (intercept (addTodo_on receiver name)) ;; mret ()) w
    | Some _ => TodoService_addTodo name w
    | None => (Fail (Raised NullPointerException), w)
    end.

(** ** [TodoController] *)

(** The constructor; its result is the field [todoService] of the new
    controller. *)
Definition new_TodoController : App Object :=
  injector ← Injector_getInjector;
  o ← call_instantiate injector (OString "TodoService");
  cast TodoService_type o.

(** The static [self] is initialised when the class is first used. *)
Definition TodoController_todoService : App Object :=
  λ w,
    match TodoController_self w with
    | Some todoService => (Ok todoService, w)
    | None =>
        (todoService ← new_TodoController;
         set_TodoController_self todoService ;;
         mret todoService) w
    end.

Definition TodoController_getTodos : App Object :=
  todoService ← TodoController_todoService;
  call_getTodos todoService.

Definition TodoController_addTodo (name : Object) : App unit :=
  todoService ← TodoController_todoService;
  call_addTodo todoService name.

(** Stand-ins for the platform in the concrete runs that close the
    development, none of which reaches reflection or the database: the
    text of an object is the name of its class, no class is found by
    name, the query answers [null] and the insertion does nothing. *)
Definition exampleToString (c : Class) (ref : N) : string := Class_name c.
Definition exampleForName (className : Object) : App (option Type_) :=
  mret None.
Definition exampleNewInstance (t : Type_) : App Object := fail TypeException.
Definition exampleQuery : App Object := mret null.
Definition exampleInsert (name : Object) : App unit := mret ().

(** ** The test class *)

(** The world before the test class runs: [mock = new MockProvider()],
    nothing allocated, the statics of [Injector] unset, [TodoController]
    not yet used. *)
Definition initialWorld : World :=
  {| mock := new_MockProvider;
     classes := ∅;
     nextRef := 0;
     Injector_injector := null;
     Injector_mockInjector := null;
     TodoController_self := None |}.

(** The arrangement of [TodoControllerTest]: the record, the list, the two
    stubs, the
    configuration of [mockInjector.instantiate('TodoService')], the mock
    injector installed, and the configuration of
    [mockTodoService.getTodos()] from the test method. It answers the
    service stub and the list; the elements of the list play no part. *)
Definition TodoControllerTest_arrange : App (Object * Object) :=
  todo1 ← allocate (Other_class "Todo__c");
  todoList ← allocate (Other_class "List<Todo__c>");
  created ← createMock TodoService_type;
  todoServiceStub ← cast TodoService_type created;
  created' ← createMock Injector_type;
  injectorStub ← cast Injector_type created';
  onMock setMock ;;
  placeholder ← call_instantiate injectorStub (OString "TodoService");
  onMock (mockReturnValue placeholder todoServiceStub) ;;
  set_Injector_mockInjector injectorStub ;;
  onMock setMock ;;
  placeholder' ← call_getTodos todoServiceStub;
  onMock (mockReturnValue placeholder' todoList) ;;
  mret (todoServiceStub, todoList).

(** The same arrangement by a test that forgets to configure
    [mockInjector.instantiate('TodoService')]. *)
Definition TodoControllerTest_arrange_partly : App (Object * Object) :=
  todo1 ← allocate (Other_class "Todo__c");
  todoList ← allocate (Other_class "List<Todo__c>");
  created ← createMock TodoService_type;
  todoServiceStub ← cast TodoService_type created;
  created' ← createMock Injector_type;
  injectorStub ← cast Injector_type created';
  set_Injector_mockInjector injectorStub ;;
  onMock setMock ;;
  placeholder' ← call_getTodos todoServiceStub;
  onMock (mockReturnValue placeholder' todoList) ;;
  mret (todoServiceStub, todoList).

(** ** Evaluation lemmas *)

Lemma bind_Return {A B} (c : Apex A) (f : A → Apex B)
    (this this' : MockProvider) (a : A) :
  c this = (Return a, this') → (c ≫= f) this = f a this'.
Proof. intros H. unfold mbind, Apex_mbind, Apex_bind. by rewrite H. Qed.

Lemma bind_Throw {A B} (c : Apex A) (f : A → Apex B)
    (this this' : MockProvider) (e : Exception) :
  c this = (Throw e, this') → (c ≫= f) this = (Throw e, this').
Proof. intros H. unfold mbind, Apex_mbind, Apex_bind. by rewrite H. Qed.

Lemma System_debug_eq (msg : string) (this : MockProvider) :
  System_debug msg this = (Return (), this).
Proof. reflexivity. Qed.

Lemma List_get_lt {A} (l : list A) (i : nat) (this : MockProvider) :
  i < length l → ∃ x, List_get l i this = (Return x, this).
Proof.
  intros Hi. destruct (lookup_lt_is_Some_2 l i Hi) as [x Hx].
  exists x. unfold List_get. by rewrite Hx.
Qed.

(** The logging loop runs through when there is a type for every name. *)
Lemma debug_loop_returns (names : list string) (types : list Type_)
    (count start : nat) (this : MockProvider) :
  start + count ≤ length names →
  start + count ≤ length types →
  for_loop start count (λ i,
    name ← List_get names i;
    System_debug ("parameter name: " +:+ name) ;;
    type ← List_get types i;
    System_debug ("  parameter type: " +:+ getName type)) this
  = (Return (), this).
Proof.
  revert start. induction count as [|count IH]; intros start Hn Ht; [done|].
  cbn [for_loop].
  destruct (List_get_lt names start this) as [name Hname]; [lia|].
  destruct (List_get_lt types start this) as [type Htype]; [lia|].
  erewrite bind_Return; [apply IH; lia|].
  erewrite bind_Return; [|exact Hname].
  erewrite bind_Return; [|apply System_debug_eq].
  erewrite bind_Return; [|exact Htype].
  apply System_debug_eq.
Qed.

(** [handleMethodCall] by cases on the flag. *)
Lemma handleMethodCall_eq (o : Object) (m : string) (rt : Type_)
    (types : list Type_) (names : list string) (args : list Object)
    (this : MockProvider) :
  length names ≤ length types →
  handleMethodCall o m rt types names args this =
    match isSettingMockValue this with
    | None => (Throw NullPointerException, this)
    | Some true =>
        (Return null,
         {| mockReturnValues := mockReturnValues this;
            isSettingMockValue := Some true;
            serializedMethodCall := Some (serializeMethodCall m args) |})
    | Some false =>
        (Return (Map_get (mockReturnValues this)
                   (Some (serializeMethodCall m args))), this)
    end.
Proof.
  intros Hlen. unfold handleMethodCall.
  do 2 (erewrite bind_Return; [|apply System_debug_eq]).
  erewrite bind_Return; [|apply debug_loop_returns; cbn; lia].
  do 2 (erewrite bind_Return; [|apply System_debug_eq]).
  erewrite bind_Return; [|reflexivity].
  destruct (isSettingMockValue this) as [[|]|] eqn:Hflag; [|done..].
  unfold mbind, Apex_mbind, Apex_bind, condition, set_serializedMethodCall,
    mret, Apex_mret, Apex_ret.
  by rewrite Hflag.
Qed.

(** Why calls are taken well-formed: with a parameter name and no type for
    it, the logging loop raises before the flag is read. *)
Example missing_type_raises (this : MockProvider) :
  handleMethodCall mockTodoService "addTodo" {| getName := "void" |}
    [] ["name"] [OString "milk"] this
  = (Throw ListException, this).
Proof.
  unfold handleMethodCall.
  do 2 (erewrite bind_Return; [|apply System_debug_eq]).
  by erewrite bind_Throw.
Qed.

Lemma intercept_eq (c : Invocation) (this : MockProvider) :
  wellFormed c →
  intercept c this =
    match isSettingMockValue this with
    | None => (Throw NullPointerException, this)
    | Some true =>
        (Return null,
         {| mockReturnValues := mockReturnValues this;
            isSettingMockValue := Some true;
            serializedMethodCall := Some (signature c) |})
    | Some false =>
        (Return (Map_get (mockReturnValues this) (Some (signature c))), this)
    end.
Proof.
  intros [Ht _]. unfold intercept, signature.
  apply handleMethodCall_eq. lia.
Qed.

Lemma setMock_eq (this : MockProvider) :
  setMock this =
    (Return (),
     {| mockReturnValues := mockReturnValues this;
        isSettingMockValue := Some true;
        serializedMethodCall := serializedMethodCall this |}).
Proof. reflexivity. Qed.

Lemma mockReturnValue_eq (returnValue value : Object) (this : MockProvider) :
  mockReturnValue returnValue value this =
    (Return (),
     {| mockReturnValues :=
          <[serializedMethodCall this := value]> (mockReturnValues this);
        isSettingMockValue := Some false;
        serializedMethodCall := None |}).
Proof. reflexivity. Qed.

Lemma configure_eq (c : Invocation) (v : Object) (this : MockProvider) :
  wellFormed c →
  configure c v this =
    (Return (),
     {| mockReturnValues := <[Some (signature c) := v]> (mockReturnValues this);
        isSettingMockValue := Some false;
        serializedMethodCall := None |}).
Proof.
  intros Hc. unfold configure.
  erewrite bind_Return; [|apply setMock_eq].
  erewrite bind_Return; [|by rewrite intercept_eq].
  by rewrite mockReturnValue_eq.
Qed.

Lemma signature_ext (c c' : Invocation) :
  stubbedMethodName c' = stubbedMethodName c →
  listOfArgs c' = listOfArgs c →
  signature c' = signature c.
Proof. unfold signature. by intros -> ->. Qed.

Lemma Map_get_insert (m : gmap (option string) Object) (key : option string)
    (v : Object) :
  Map_get (<[key := v]> m) key = v.
Proof. unfold Map_get. by rewrite lookup_insert_eq. Qed.

Lemma Map_get_insert_ne (m : gmap (option string) Object)
    (key key' : option string) (v : Object) :
  key ≠ key' → Map_get (<[key := v]> m) key' = Map_get m key'.
Proof. intros Hne. unfold Map_get. by rewrite lookup_insert_ne. Qed.

Lemma Map_get_absent (m : gmap (option string) Object) (key : option string) :
  m !! key = None → Map_get m key = null.
Proof. unfold Map_get. by intros ->. Qed.

(** Once the flag has been assigned, a call whose signature has no entry
    returns [null] in either mode. *)
Lemma unconfigured_call_returns_null (c : Invocation) (this : MockProvider) :
  wellFormed c →
  isSettingMockValue this ≠ None →
  mockReturnValues this !! Some (signature c) = None →
  (intercept c this).1 = Return null.
Proof.
  intros Hc Hflag Hnone. rewrite intercept_eq by done.
  destruct (isSettingMockValue this) as [[|]|]; [done| |done].
  cbn. by rewrite Map_get_absent.
Qed.

(** ** Round trip *)

(** C1. Configuring [(m, a) → v] with [setMock()], an intercepted call of
    [m(a)] and [mockReturnValue(_, v)] leaves the provider idle, and a call
    of [m] with the same arguments intercepted then returns exactly [v].
    It holds from every state of the provider, idle ones included. *)
Theorem round_trip (this : MockProvider) (c c' : Invocation) (v : Object) :
  wellFormed c →
  wellFormed c' →
  stubbedMethodName c' = stubbedMethodName c →
  listOfArgs c' = listOfArgs c →
  ∃ this1,
    configure c v this = (Return (), this1) ∧
    isSettingMockValue this1 = Some false ∧
    intercept c' this1 = (Return v, this1).
Proof.
  intros Hc Hc' Hm Ha. eexists. split; [by apply configure_eq|].
  split; [done|].
  rewrite intercept_eq by done. cbn.
  by rewrite (signature_ext c c'), Map_get_insert.
Qed.

(** ** Calls without configuration *)

(** C2. On a freshly constructed provider, on which [setMock()] has never
    been called, an intercepted call of the unconfigured [getTodos()]
    raises [NullPointerException] instead of returning the absence
    value: the flag the [if] reads was never assigned. *)
Theorem fresh_provider_call_throws :
  mockReturnValues new_MockProvider !! Some (signature getTodos_call) = None ∧
  intercept getTodos_call new_MockProvider
    = (Throw NullPointerException, new_MockProvider).
Proof.
  split; [apply lookup_empty|].
  by rewrite intercept_eq by (by split).
Qed.

(** ** [mockReturnValue] out of sequence *)

(** C3, amended. [mockReturnValue] raises nothing: called while the
    controller is idle or the pending slot is empty, it completes
    normally, puts the value into the registry under the content of the
    pending slot (the [null] key when the slot is empty), leaves the slot
    empty and the controller idle. *)
Theorem mockReturnValue_never_raises (this : MockProvider)
    (returnValue value : Object) :
  isSettingMockValue this ≠ Some true ∨ serializedMethodCall this = None →
  ∃ this1,
    mockReturnValue returnValue value this = (Return (), this1) ∧
    mockReturnValues this1
      = <[serializedMethodCall this := value]> (mockReturnValues this) ∧
    isSettingMockValue this1 = Some false ∧
    serializedMethodCall this1 = None.
Proof. intros _. eexists. by rewrite mockReturnValue_eq. Qed.

(** ** Configured [null] against no configuration *)

(** C4, amended. A call configured to return [null] and a call that was
    never configured return the same value, [null], when intercepted in
    idle state, although the registry has an entry for the first and
    none for the second: [handleMethodCall] reads the registry with
    [Map.get] alone. *)
Theorem configured_null_indistinguishable (this : MockProvider)
    (c : Invocation) :
  wellFormed c →
  isSettingMockValue this = Some false →
  mockReturnValues this !! Some (signature c) = None →
  ∃ this1,
    configure c null this = (Return (), this1) ∧
    mockReturnValues this1 !! Some (signature c) = Some null ∧
    (intercept c this1).1 = Return null ∧
    (intercept c this).1 = Return null.
Proof.
  intros Hc Hidle Hnone. eexists. split; [by apply configure_eq|].
  cbn. split; [apply lookup_insert_eq|].
  rewrite !intercept_eq by done. cbn. rewrite Hidle. cbn.
  by rewrite Map_get_insert, Map_get_absent.
Qed.

(** ** Signatures *)

Lemma append_closing_eq (s : string) : s +:+ ")" = ")" → s = "".
Proof.
  destruct s as [|b s]; [done|]. cbn. intros H. injection H as _ H.
  by destruct s.
Qed.

Lemma serializeMethodCall_inv (m : string) (args args' : list Object) :
  serializeMethodCall m args = serializeMethodCall m args' →
  String_join args "," +:+ ")" = String_join args' "," +:+ ")".
Proof.
  unfold serializeMethodCall. intros H.
  apply (inj (String.append m)) in H. cbn in H. by injection H.
Qed.

(** C5, amended. The signature of a zero-argument call of [m] is [m()],
    and it is the signature of a one-argument call of [m] exactly when
    the string form of the sole argument is empty; it differs from every
    one-argument signature whose argument has a non-empty string form. *)
Theorem zero_argument_signature (m : string) (x : Object) :
  serializeMethodCall m [] = m +:+ "()" ∧
  (serializeMethodCall m [] = serializeMethodCall m [x] ↔
   String_valueOf x = "").
Proof.
  split; [done|]. split.
  - intros H. apply serializeMethodCall_inv in H.
    by apply append_closing_eq.
  - intros Hx. unfold serializeMethodCall. cbn. by rewrite Hx.
Qed.

(** ** Recording *)

(** C6, amended. In recording mode an intercepted call stores its
    signature into the pending slot and returns [null]; that is no
    reserved placeholder but the value an idle call returns for a
    signature configured to [null]. *)
Theorem recording_call_returns_null (this this' : MockProvider)
    (c : Invocation) :
  wellFormed c →
  isSettingMockValue this = Some true →
  isSettingMockValue this' = Some false →
  mockReturnValues this' !! Some (signature c) = Some null →
  ∃ this1,
    intercept c this = (Return null, this1) ∧
    serializedMethodCall this1 = Some (signature c) ∧
    mockReturnValues this1 = mockReturnValues this ∧
    isSettingMockValue this1 = Some true ∧
    intercept c this' = (Return null, this').
Proof.
  intros Hc Hrec Hidle Hnull.
  exists {| mockReturnValues := mockReturnValues this;
            isSettingMockValue := Some true;
            serializedMethodCall := Some (signature c) |}.
  rewrite !intercept_eq by done. rewrite Hrec, Hidle.
  do 4 (split; [done|]).
  unfold Map_get. by rewrite Hnull.
Qed.

Lemma run_cons (a : Action) (actions : list Action) (this : MockProvider) :
  run (a :: actions) this = run actions (step a this).
Proof. reflexivity. Qed.

Lemma run_app (actions actions' : list Action) (this : MockProvider) :
  run (actions ++ actions') this = run actions' (run actions this).
Proof. apply foldl_app. Qed.

(** The state after [setMock()] and a run of intercepted calls. *)
Lemma run_calls_recording (calls : list Invocation) (this : MockProvider) :
  Forall wellFormed calls →
  isSettingMockValue this = Some true →
  run (DoCall <$> calls) this =
    {| mockReturnValues := mockReturnValues this;
       isSettingMockValue := Some true;
       serializedMethodCall :=
         default (serializedMethodCall this) (Some ∘ signature <$> last calls) |}.
Proof.
  intros Hwf. revert this.
  induction Hwf as [|c calls Hc _ IH]; intros this Hrec.
  - cbn. destruct this; cbn in *. by subst.
  - rewrite fmap_cons, run_cons. cbn [step].
    rewrite intercept_eq by done. rewrite Hrec. cbn [snd].
    rewrite IH by done. cbn.
    f_equal. rewrite last_cons. by destruct (last calls).
Qed.

(** C8. In [setMock(); call_1; ...; call_n; mockReturnValue(_, v)] with
    [n ≥ 1], the pending slot holds the signature of [call_n] when
    [mockReturnValue] runs, and the registry afterwards is the registry
    from before with [v] put under that signature: the earlier calls of
    the session leave no trace. *)
Theorem last_call_before_commit_wins (this : MockProvider)
    (calls : list Invocation) (c : Invocation) (returnValue v : Object) :
  Forall wellFormed calls →
  wellFormed c →
  serializedMethodCall (run (DoSetMock :: (DoCall <$> (calls ++ [c]))) this)
    = Some (signature c) ∧
  run (DoSetMock :: (DoCall <$> (calls ++ [c]))
         ++ [DoMockReturnValue returnValue v]) this
    = {| mockReturnValues := <[Some (signature c) := v]> (mockReturnValues this);
         isSettingMockValue := Some false;
         serializedMethodCall := None |}.
Proof.
  intros Hcalls Hc.
  assert (Forall wellFormed (calls ++ [c])) as Hall.
  { apply Forall_app. split; [done|]. by constructor. }
  assert (run (DoSetMock :: (DoCall <$> (calls ++ [c]))) this =
          {| mockReturnValues := mockReturnValues this;
             isSettingMockValue := Some true;
             serializedMethodCall := Some (signature c) |}) as Hrun.
  { rewrite run_cons, run_calls_recording by done. cbn.
    by rewrite last_snoc. }
  split; [by rewrite Hrun|].
  rewrite app_comm_cons, run_app, Hrun. reflexivity.
Qed.

(** ** The pending slot *)

Lemma step_invariant (a : Action) (this : MockProvider) (g : Controller) :
  wellFormedAction a →
  RecordingInvariant this g →
  RecordingInvariant (step a this) (track g a).
Proof.
  intros Ha Hinv. destruct a as [|c|returnValue value]; cbn [step track].
  - destruct g as [|n]; cbn in *; destruct Hinv as [_ Hslot]; by split.
  - rewrite intercept_eq by done.
    destruct g as [|n]; cbn in Hinv; destruct Hinv as [Hflag Hslot].
    + by destruct (isSettingMockValue this) as [[|]|] eqn:Hf; cbn; rewrite ?Hf.
    + rewrite Hflag. cbn. split; [done|]. split; [done|lia].
  - rewrite mockReturnValue_eq. by destruct g.
Qed.

Lemma run_invariant (actions : list Action) (this : MockProvider)
    (g : Controller) :
  Forall wellFormedAction actions →
  RecordingInvariant this g →
  RecordingInvariant (run actions this) (foldl track g actions).
Proof.
  intros Hwf. revert this g.
  induction Hwf as [|a actions Ha _ IH]; intros this g Hinv; [done|].
  rewrite run_cons. cbn [foldl]. apply IH. by apply step_invariant.
Qed.

Lemma new_MockProvider_invariant : RecordingInvariant new_MockProvider Idle.
Proof. by split. Qed.

(** The flag of the class is [true] exactly when the controller of the
    design document is recording. *)
Lemma flag_follows_controller (actions : list Action) :
  Forall wellFormedAction actions →
  isSettingMockValue (run actions new_MockProvider) = Some true ↔
  ∃ n, controller actions = Recording n.
Proof.
  intros Hwf.
  pose proof (run_invariant actions _ _ Hwf new_MockProvider_invariant) as Hinv.
  fold (controller actions) in Hinv.
  destruct (controller actions) as [|n]; cbn in Hinv.
  - split; [by intros ?; destruct Hinv|by intros [? ?]].
  - split; [by exists n|by destruct Hinv].
Qed.

(** C7, amended. In every state a freshly constructed provider reaches
    through [setMock()], intercepted calls and [mockReturnValue], the
    pending slot is non-empty if and only if the flag [isSettingMockValue]
    is [true] and at least one call has been intercepted since the
    controller last left idle, that is, since the first [setMock()] after
    construction or after the latest [mockReturnValue]; a [setMock()]
    issued while recording keeps the slot. *)
Theorem pending_slot_invariant (actions : list Action) :
  Forall wellFormedAction actions →
  serializedMethodCall (run actions new_MockProvider) ≠ None ↔
  isSettingMockValue (run actions new_MockProvider) = Some true ∧
  ∃ n, controller actions = Recording n ∧ 1 ≤ n.
Proof.
  intros Hwf.
  pose proof (run_invariant actions _ _ Hwf new_MockProvider_invariant) as Hinv.
  fold (controller actions) in Hinv.
  destruct (controller actions) as [|n]; cbn in Hinv;
    destruct Hinv as [Hflag Hslot].
  - split; [done|]. by intros [_ (n & ? & _)].
  - split.
    + intros Hne. split; [done|]. exists n. split; [done|].
      destruct n; [by destruct Hne; apply Hslot|lia].
    + intros [_ (k & Hk & Hpos)]. injection Hk as <-.
      intros Hnone. apply Hslot in Hnone. lia.
Qed.

(** ** Argument order *)

(** C9. After [(m, [1, 2])] has been configured to return ["x"], the
    signature of [m(2, 1)] is another one, the registry has no entry for
    it if it had none before, and [m(2, 1)] intercepted in idle state
    returns the absence value [null]. *)
Theorem argument_order_sensitivity (this : MockProvider) (c c' : Invocation) :
  wellFormed c →
  wellFormed c' →
  stubbedMethodName c' = stubbedMethodName c →
  listOfArgs c = [OInteger 1; OInteger 2] →
  listOfArgs c' = [OInteger 2; OInteger 1] →
  mockReturnValues this !! Some (signature c') = None →
  signature c ≠ signature c' ∧
  ∃ this1,
    configure c (OString "x") this = (Return (), this1) ∧
    isSettingMockValue this1 = Some false ∧
    mockReturnValues this1 !! Some (signature c') = None ∧
    intercept c' this1 = (Return null, this1).
Proof.
  intros Hc Hc' Hm Ha Ha' Hnone.
  assert (signature c ≠ signature c') as Hne.
  { unfold signature. rewrite Hm, Ha, Ha'. intros H.
    apply serializeMethodCall_inv in H. vm_compute in H. discriminate. }
  split; [done|]. eexists. split; [by apply configure_eq|].
  assert (Some (signature c) ≠ Some (signature c')) as Hne' by congruence.
  split; [done|]. cbn. split; [by rewrite lookup_insert_ne|].
  rewrite intercept_eq by done. cbn.
  by rewrite Map_get_insert_ne, Map_get_absent.
Qed.

(** ** Collisions of signatures *)

(** C10. The argument lists [["1,2"]] and [["1"; "2"]] differ and have the
    same signature under every method name, so that configuring a value
    for the call with the first makes an idle call with the second, which
    returned [null] before, return that value. *)
Theorem serializer_not_injective (this : MockProvider) (c c' : Invocation)
    (v : Object) :
  wellFormed c →
  wellFormed c' →
  stubbedMethodName c' = stubbedMethodName c →
  listOfArgs c = [OString "1,2"] →
  listOfArgs c' = [OString "1"; OString "2"] →
  isSettingMockValue this = Some false →
  mockReturnValues this !! Some (signature c') = None →
  listOfArgs c ≠ listOfArgs c' ∧
  serializeMethodCall (stubbedMethodName c) (listOfArgs c)
    = serializeMethodCall (stubbedMethodName c') (listOfArgs c') ∧
  intercept c' this = (Return null, this) ∧
  ∃ this1,
    configure c v this = (Return (), this1) ∧
    intercept c' this1 = (Return v, this1).
Proof.
  intros Hc Hc' Hm Ha Ha' Hidle Hnone.
  assert (signature c = signature c') as Hsig.
  { unfold signature. by rewrite Hm, Ha, Ha'. }
  split; [by rewrite Ha, Ha'|]. split; [done|]. split.
  - rewrite intercept_eq by done. rewrite Hidle. by rewrite Map_get_absent.
  - eexists. split; [by apply configure_eq|].
    rewrite intercept_eq by done. cbn. by rewrite <- Hsig, Map_get_insert.
Qed.

(** * Further properties of the class *)

(** ** Calls on any argument lists *)

(** Whatever the lists are, the logging loop ends normally or with a
    [ListException], and leaves the instance alone. *)
Lemma debug_loop_cases (names : list string) (types : list Type_)
    (count start : nat) (this : MockProvider) :
  for_loop start count (λ i,
    name ← List_get names i;
    System_debug ("parameter name: " +:+ name) ;;
    type ← List_get types i;
    System_debug ("  parameter type: " +:+ getName type)) this
  = (Return (), this) ∨
  for_loop start count (λ i,
    name ← List_get names i;
    System_debug ("parameter name: " +:+ name) ;;
    type ← List_get types i;
    System_debug ("  parameter type: " +:+ getName type)) this
  = (Throw ListException, this).
Proof.
  revert start. induction count as [|count IH]; intros start; [by left|].
  cbn [for_loop].
  destruct (names !! start) as [name|] eqn:Hname.
  - destruct (types !! start) as [type|] eqn:Htype.
    + assert (List_get names start this = (Return name, this)) as Hn.
      { unfold List_get. by rewrite Hname. }
      assert (List_get types start this = (Return type, this)) as Ht.
      { unfold List_get. by rewrite Htype. }
      destruct (IH (S start)) as [H|H]; [left|right].
      * erewrite bind_Return; [exact H|].
        erewrite bind_Return; [|exact Hn].
        erewrite bind_Return; [|apply System_debug_eq].
        erewrite bind_Return; [|exact Ht].
        apply System_debug_eq.
      * erewrite bind_Return; [exact H|].
        erewrite bind_Return; [|exact Hn].
        erewrite bind_Return; [|apply System_debug_eq].
        erewrite bind_Return; [|exact Ht].
        apply System_debug_eq.
    + right. erewrite bind_Throw; [done|].
      erewrite bind_Return; [|unfold List_get; by rewrite Hname].
      erewrite bind_Return; [|apply System_debug_eq].
      erewrite bind_Throw; [done|]. unfold List_get. by rewrite Htype.
  - right. erewrite bind_Throw; [done|].
    erewrite bind_Throw; [done|]. unfold List_get. by rewrite Hname.
Qed.

(** [handleMethodCall] on any arguments: it raises [ListException] out of
    the logging loop, or goes by the flag. *)
Lemma handleMethodCall_cases (o : Object) (m : string) (rt : Type_)
    (types : list Type_) (names : list string) (args : list Object)
    (this : MockProvider) :
  handleMethodCall o m rt types names args this = (Throw ListException, this) ∨
  handleMethodCall o m rt types names args this =
    match isSettingMockValue this with
    | None => (Throw NullPointerException, this)
    | Some true =>
        (Return null,
         {| mockReturnValues := mockReturnValues this;
            isSettingMockValue := Some true;
            serializedMethodCall := Some (serializeMethodCall m args) |})
    | Some false =>
        (Return (Map_get (mockReturnValues this)
                   (Some (serializeMethodCall m args))), this)
    end.
Proof.
  unfold handleMethodCall.
  do 2 (erewrite bind_Return; [|apply System_debug_eq]).
  destruct (debug_loop_cases names types (length names) 0 this) as [H|H].
  - right. erewrite bind_Return; [|exact H].
    do 2 (erewrite bind_Return; [|apply System_debug_eq]).
    erewrite bind_Return; [|reflexivity].
    destruct (isSettingMockValue this) as [[|]|] eqn:Hflag; [|done..].
    unfold mbind, Apex_mbind, Apex_bind, condition, set_serializedMethodCall,
      mret, Apex_mret, Apex_ret.
    by rewrite Hflag.
  - left. by erewrite bind_Throw.
Qed.

Lemma step_call_not_recording (c : Invocation) (this : MockProvider) :
  isSettingMockValue this ≠ Some true → step (DoCall c) this = this.
Proof.
  intros Hflag. cbn [step]. unfold intercept.
  destruct (handleMethodCall_cases (stubbedObject c) (stubbedMethodName c)
              (returnType c) (listOfParamTypes c) (listOfParamNames c)
              (listOfArgs c) this) as [-> | ->]; [done|].
  by destruct (isSettingMockValue this) as [[|]|].
Qed.

(** X1. Intercepted calls outside recording mode never change the provider,
    however many there are and whatever they return or raise: the
    registry, the flag and the pending slot are read only. *)
Theorem calls_outside_recording_change_nothing (calls : list Invocation)
    (this : MockProvider) :
  isSettingMockValue this ≠ Some true →
  run (DoCall <$> calls) this = this.
Proof.
  intros Hflag. induction calls as [|c calls IH]; [done|].
  rewrite fmap_cons, run_cons. by rewrite step_call_not_recording.
Qed.


(** ** When a call can raise [NullPointerException] *)

Lemma run_calls_not_recording (actions : list Action) (this : MockProvider) :
  Forall (λ a, isCall a = true) actions →
  isSettingMockValue this ≠ Some true →
  run actions this = this.
Proof.
  intros Hcalls Hflag. induction Hcalls as [|a actions Ha _ IH]; [done|].
  destruct a as [|c|]; try discriminate Ha.
  by rewrite run_cons, step_call_not_recording.
Qed.

Lemma step_flag_assigned (a : Action) (this : MockProvider) :
  isSettingMockValue this ≠ None ∨ isCall a = false →
  isSettingMockValue (step a this) ≠ None.
Proof.
  intros H. destruct a as [|c|returnValue value]; [done| |done].
  destruct H as [H|H]; [|discriminate H].
  cbn [step]. unfold intercept.
  destruct (handleMethodCall_cases (stubbedObject c) (stubbedMethodName c)
              (returnType c) (listOfParamTypes c) (listOfParamNames c)
              (listOfArgs c) this) as [-> | ->]; [done|].
  by destruct (isSettingMockValue this) as [[|]|] eqn:Hf; cbn; rewrite ?Hf.
Qed.

Lemma run_flag_assigned (actions : list Action) (this : MockProvider) :
  isSettingMockValue this ≠ None ∨ Exists (λ a, isCall a = false) actions →
  isSettingMockValue (run actions this) ≠ None.
Proof.
  revert this. induction actions as [|a actions IH]; intros this H.
  - destruct H as [H|H]; [done|]. by apply Exists_nil in H.
  - rewrite run_cons. apply IH.
    destruct H as [H|H]; [left; apply step_flag_assigned; by left|].
    apply Exists_cons in H as [H|H]; [|by right].
    left. apply step_flag_assigned. by right.
Qed.

(** X3. An intercepted call raises [NullPointerException] exactly when the
    provider has seen nothing but intercepted calls since its
    construction: the first [setMock()] or [mockReturnValue] assigns the
    flag for good, and from then on every well-formed call returns. *)
Theorem null_pointer_iff_never_configured (actions : list Action)
    (c : Invocation) :
  wellFormed c →
  (intercept c (run actions new_MockProvider)).1 = Throw NullPointerException ↔
  Forall (λ a, isCall a = true) actions.
Proof.
  intros Hc. split.
  - intros Hthrow.
    destruct (decide (Forall (λ a, isCall a = true) actions)) as [|Hnot];
      [done|].
    apply not_Forall_Exists in Hnot; [|apply _].
    assert (isSettingMockValue (run actions new_MockProvider) ≠ None) as Hflag.
    { apply run_flag_assigned. right.
      eapply Exists_impl; [exact Hnot|]. cbn. intros a Ha.
      by destruct (isCall a). }
    rewrite intercept_eq in Hthrow by done.
    by destruct (isSettingMockValue (run actions new_MockProvider)) as [[|]|].
  - intros Hcalls. rewrite run_calls_not_recording by done.
    by rewrite intercept_eq.
Qed.

(** ** The registry over time *)

Lemma step_registry (a : Action) (this : MockProvider) :
  mockReturnValues (step a this) = mockReturnValues this ∨
  ∃ v, mockReturnValues (step a this)
       = <[serializedMethodCall this := v]> (mockReturnValues this).
Proof.
  destruct a as [|c|returnValue value]; [by left| |right; by exists value].
  left. cbn [step]. unfold intercept.
  destruct (handleMethodCall_cases (stubbedObject c) (stubbedMethodName c)
              (returnType c) (listOfParamTypes c) (listOfParamNames c)
              (listOfArgs c) this) as [-> | ->]; [done|].
  by destruct (isSettingMockValue this) as [[|]|].
Qed.

(** X4. No sequence of [setMock()], intercepted calls and [mockReturnValue]
    removes a key from the registry: a signature once configured stays
    configured (its value can be replaced) for the life of the provider. *)
Theorem registry_never_shrinks (actions : list Action) (this : MockProvider) :
  dom (mockReturnValues this) ⊆ dom (mockReturnValues (run actions this)).
Proof.
  revert this. induction actions as [|a actions IH]; intros this; [done|].
  rewrite run_cons. etrans; [|apply IH].
  destruct (step_registry a this) as [-> | [v ->]]; [done|].
  apply dom_insert_subseteq.
Qed.

(** ** Configurations side by side *)

(** X5. Last write wins: configuring a signature a second time replaces the
    value, and the registry is what it would be had the first
    configuration never been made. *)
Theorem last_write_wins (this : MockProvider) (c c' : Invocation)
    (v1 v2 : Object) :
  wellFormed c →
  wellFormed c' →
  signature c' = signature c →
  ∃ this1 this2,
    configure c v1 this = (Return (), this1) ∧
    configure c' v2 this1 = (Return (), this2) ∧
    intercept c this2 = (Return v2, this2) ∧
    mockReturnValues this2
      = <[Some (signature c) := v2]> (mockReturnValues this).
Proof.
  intros Hc Hc' Hsig. do 2 eexists.
  split; [by apply configure_eq|]. split; [by apply configure_eq|].
  rewrite intercept_eq by done. cbn. rewrite Hsig.
  by rewrite Map_get_insert, insert_insert_eq.
Qed.


(** X7. A value committed while the pending slot is empty is lost: it goes
    under the [null] key, which is the signature of no call, so every
    call answers afterwards what the registry held for it before. *)
Theorem empty_slot_commit_is_lost (this : MockProvider)
    (returnValue v : Object) (c : Invocation) :
  wellFormed c →
  serializedMethodCall this = None →
  ∃ this1,
    mockReturnValue returnValue v this = (Return (), this1) ∧
    intercept c this1
      = (Return (Map_get (mockReturnValues this) (Some (signature c))), this1).
Proof.
  intros Hc Hslot. eexists. split; [apply mockReturnValue_eq|].
  rewrite intercept_eq by done. cbn. rewrite Hslot.
  by rewrite Map_get_insert_ne.
Qed.

(** ** Recording sessions with further [setMock()] calls *)

Lemma lastCall_snoc (actions : list Action) (a : Action) :
  lastCall (actions ++ [a])
  = match a with DoCall c => Some c | _ => lastCall actions end.
Proof. unfold lastCall. by rewrite foldl_snoc. Qed.

Lemma run_snoc (actions : list Action) (a : Action) (this : MockProvider) :
  run (actions ++ [a]) this = step a (run actions this).
Proof. by rewrite run_app. Qed.

Lemma run_recording_session (actions : list Action) (this : MockProvider) :
  Forall wellFormedAction actions →
  Forall (λ a, isCommit a = false) actions →
  isSettingMockValue this = Some true →
  run actions this =
    {| mockReturnValues := mockReturnValues this;
       isSettingMockValue := Some true;
       serializedMethodCall :=
         default (serializedMethodCall this)
           (Some ∘ signature <$> lastCall actions) |}.
Proof.
  intros Hwf Hnc Hrec.
  induction actions as [|a actions IH] using rev_ind.
  - cbn. destruct this; cbn in *. by subst.
  - apply Forall_app in Hwf as [Hwf Ha]. apply Forall_app in Hnc as [Hnc Hna].
    apply Forall_inv in Ha. apply Forall_inv in Hna.
    rewrite run_snoc, lastCall_snoc, IH by done.
    destruct a as [|c|]; cbn in Ha, Hna; [done| |discriminate Hna].
    cbn [step]. by rewrite intercept_eq.
Qed.

(** X8. In a recording session [setMock(); ...; mockReturnValue(_, v)] whose
    middle part mixes intercepted calls with further [setMock()] calls,
    the value goes under the signature of the call intercepted last; when
    no call was intercepted at all, it goes under what the pending slot
    held before the session. *)
Theorem session_commits_last_call (this : MockProvider)
    (actions : list Action) (returnValue v : Object) :
  Forall wellFormedAction actions →
  Forall (λ a, isCommit a = false) actions →
  run (DoSetMock :: actions ++ [DoMockReturnValue returnValue v]) this
  = {| mockReturnValues :=
         <[default (serializedMethodCall this)
             (Some ∘ signature <$> lastCall actions) := v]>
           (mockReturnValues this);
       isSettingMockValue := Some false;
       serializedMethodCall := None |}.
Proof.
  intros Hwf Hnc.
  rewrite run_cons, run_snoc, run_recording_session by done.
  reflexivity.
Qed.

(** ** Which calls the signature tells apart *)

Lemma length_append (s t : string) :
  String.length (s +:+ t) = String.length s + String.length t.
Proof. induction s as [|a s IH]; [done|]. simpl. by rewrite IH. Qed.

Lemma append_inv_r (s s' t : string) : s +:+ t = s' +:+ t → s = s'.
Proof.
  revert s'. induction s as [|a s IH]; intros [|b s'] H; [done| | |].
  - apply (f_equal String.length) in H.
    rewrite !length_append in H. simpl in H. lia.
  - apply (f_equal String.length) in H.
    rewrite !length_append in H. simpl in H. lia.
  - simpl in H. injection H as -> H. f_equal. by apply IH.
Qed.

Lemma occurs_append (a : Ascii.ascii) (s r : string) :
  occurs a (s +:+ String a r) = true.
Proof.
  induction s as [|b s IH]; simpl.
  - by destruct (decide (a = a)).
  - by destruct (decide (a = b)).
Qed.

(** Two strings cut at the first occurrence of a character. *)
Lemma split_at_char (a : Ascii.ascii) (s1 r1 s2 r2 : string) :
  occurs a s1 = false →
  occurs a s2 = false →
  s1 +:+ String a r1 = s2 +:+ String a r2 →
  s1 = s2 ∧ r1 = r2.
Proof.
  revert s2.
  induction s1 as [|b s1 IH]; intros [|b' s2] H1 H2 H; simpl in *.
  - by injection H as ->.
  - injection H as -> _. by destruct (decide (b' = b')).
  - injection H as <- _. by destruct (decide (b = b)).
  - injection H as -> H.
    destruct (decide (a = b')); [done|].
    destruct (IH s2 H1 H2 H) as [-> ->]. done.
Qed.

Lemma String_join_cons2 (x y : Object) (rest : list Object) :
  String_join (x :: y :: rest) ","
  = String_valueOf x +:+ String ","%char (String_join (y :: rest) ",").
Proof. reflexivity. Qed.

Lemma append_nonempty (s r : string) (a : Ascii.ascii) :
  s +:+ String a r ≠ "".
Proof. by destruct s. Qed.

Lemma String_join_comma_free (l l' : list Object) :
  Forall (λ x, occurs ","%char (String_valueOf x) = false) l →
  Forall (λ x, occurs ","%char (String_valueOf x) = false) l' →
  String_join l "," = String_join l' "," →
  String_valueOf <$> l = String_valueOf <$> l' ∨
  (l = [] ∧ String_valueOf <$> l' = [""]) ∨
  (String_valueOf <$> l = [""] ∧ l' = []).
Proof.
  intros Hl. revert l'.
  induction Hl as [|x l Hx Hl IH]; intros l' Hl' H.
  - destruct Hl' as [|y l' Hy Hl']; [by left|].
    destruct l' as [|z l'].
    + right; left. split; [done|]. cbn in H. cbn. by rewrite <- H.
    + rewrite String_join_cons2 in H. symmetry in H.
      by apply append_nonempty in H.
  - destruct l as [|x2 l].
    + destruct Hl' as [|y l' Hy Hl'].
      * right; right. split; [|done]. cbn in H. cbn. by rewrite H.
      * destruct l' as [|z l'].
        -- left. cbn in H. cbn. by rewrite H.
        -- rewrite String_join_cons2 in H.
           change (String_join [x] ",") with (String_valueOf x) in H.
           rewrite H in Hx. by rewrite occurs_append in Hx.
    + destruct Hl' as [|y l' Hy Hl'].
      * rewrite String_join_cons2 in H. by apply append_nonempty in H.
      * destruct l' as [|z l'].
        -- rewrite String_join_cons2 in H.
           change (String_join [y] ",") with (String_valueOf y) in H.
           rewrite <- H in Hy. by rewrite occurs_append in Hy.
        -- rewrite !String_join_cons2 in H.
           apply split_at_char in H as [Hxy H]; [|done..].
           destruct (IH _ Hl' H) as [Heq|[[? ?]|[? ?]]]; [|done..].
           left. rewrite !fmap_cons in Heq |- *. by rewrite Hxy, Heq.
Qed.

(** X9. Where no method name contains an opening parenthesis and no argument
    text contains a comma, the signature is as exact as the texts of the
    arguments: two calls with one signature have the same method name
    and, argument by argument, the same texts, but for the call without
    arguments and the call with one argument of empty text. *)
Theorem signature_injective_without_commas (m m' : string)
    (args args' : list Object) :
  occurs "("%char m = false →
  occurs "("%char m' = false →
  Forall (λ x, occurs ","%char (String_valueOf x) = false) args →
  Forall (λ x, occurs ","%char (String_valueOf x) = false) args' →
  serializeMethodCall m args = serializeMethodCall m' args' →
  m = m' ∧
  (String_valueOf <$> args = String_valueOf <$> args' ∨
   (args = [] ∧ String_valueOf <$> args' = [""]) ∨
   (String_valueOf <$> args = [""] ∧ args' = [])).
Proof.
  intros Hm Hm' Hargs Hargs' H. unfold serializeMethodCall in H. cbn in H.
  apply split_at_char in H as [-> H]; [|done..].
  split; [done|]. apply append_inv_r in H.
  by apply String_join_comma_free.
Qed.

(** ** The logging loop out of bounds *)

Lemma debug_loop_throws (names : list string) (types : list Type_)
    (count start : nat) (this : MockProvider) :
  start + count ≤ length names →
  start ≤ length types →
  length types < start + count →
  for_loop start count (λ i,
    name ← List_get names i;
    System_debug ("parameter name: " +:+ name) ;;
    type ← List_get types i;
    System_debug ("  parameter type: " +:+ getName type)) this
  = (Throw ListException, this).
Proof.
  revert start. induction count as [|count IH]; intros start Hn Hs Ht; [lia|].
  - cbn [for_loop].
    destruct (List_get_lt names start this) as [name Hname]; [lia|].
    destruct (decide (start < length types)) as [Hlt|Hge].
    + destruct (List_get_lt types start this) as [type Htype]; [done|].
      erewrite bind_Return; [apply IH; lia|].
      erewrite bind_Return; [|exact Hname].
      erewrite bind_Return; [|apply System_debug_eq].
      erewrite bind_Return; [|exact Htype].
      apply System_debug_eq.
    + erewrite bind_Throw; [done|].
      erewrite bind_Return; [|exact Hname].
      erewrite bind_Return; [|apply System_debug_eq].
      erewrite bind_Throw; [done|].
      unfold List_get. rewrite lookup_ge_None_2; [done|lia].
Qed.

(** X10. [handleMethodCall] raises [ListException] exactly when it is handed
    fewer parameter types than parameter names; it does so out of the
    logging loop, before the flag is read, and leaves the provider as it
    was. The number of arguments plays no part. *)
Theorem ListException_iff_fewer_types (o : Object) (m : string) (rt : Type_)
    (types : list Type_) (names : list string) (args : list Object)
    (this : MockProvider) :
  handleMethodCall o m rt types names args this = (Throw ListException, this) ↔
  length types < length names.
Proof.
  split.
  - intros Hthrow.
    destruct (decide (length types < length names)) as [|Hge]; [done|].
    rewrite handleMethodCall_eq in Hthrow by lia.
    by destruct (isSettingMockValue this) as [[|]|].
  - intros Hlt. unfold handleMethodCall.
    do 2 (erewrite bind_Return; [|apply System_debug_eq]).
    erewrite bind_Throw; [done|].
    apply debug_loop_throws; cbn; lia.
Qed.

(** ** The pending slot outside recording *)

Lemma step_slot_empty (a : Action) (this : MockProvider) :
  (isSettingMockValue this ≠ Some true → serializedMethodCall this = None) →
  isSettingMockValue (step a this) ≠ Some true →
  serializedMethodCall (step a this) = None.
Proof.
  intros Hinv. destruct a as [|c|returnValue value]; [done| |done].
  cbn [step]. unfold intercept.
  destruct (handleMethodCall_cases (stubbedObject c) (stubbedMethodName c)
              (returnType c) (listOfParamTypes c) (listOfParamNames c)
              (listOfArgs c) this) as [-> | ->]; [done|].
  by destruct (isSettingMockValue this) as [[|]|] eqn:Hf; cbn; rewrite ?Hf;
    auto.
Qed.

(** X11. In every state a fresh provider reaches, by whatever calls, the
    pending slot is empty unless the provider is recording: a
    [mockReturnValue] outside recording therefore never writes under the
    signature of a call. *)
Theorem slot_empty_outside_recording (actions : list Action) :
  isSettingMockValue (run actions new_MockProvider) ≠ Some true →
  serializedMethodCall (run actions new_MockProvider) = None.
Proof.
  induction actions as [|a actions IH] using rev_ind; [done|].
  rewrite run_snoc. by apply step_slot_empty.
Qed.

(** * [Injector] and [TodoController] *)

Lemma App_bind_Ok {A B} (c : App A) (f : A → App B) (w w' : World) (a : A) :
  c w = (Ok a, w') → (c ≫= f) w = f a w'.
Proof. intros H. unfold mbind, App_mbind, App_bind. by rewrite H. Qed.

Lemma App_bind_Fail {A B} (c : App A) (f : A → App B) (w w' : World)
    (e : Failure) :
  c w = (Fail e, w') → (c ≫= f) w = (Fail e, w').
Proof. intros H. unfold mbind, App_mbind, App_bind. by rewrite H. Qed.

Lemma with_mock_same (w : World) : with_mock (mock w) w = w.
Proof. by destruct w. Qed.

Lemma onMock_Return {A} (c : Apex A) (w : World) (a : A) :
  c (mock w) = (Return a, mock w) → onMock c w = (Ok a, w).
Proof. intros H. unfold onMock. by rewrite H, with_mock_same. Qed.

(** A call on a stub while the provider is idle: the registry entry,
    converted to the return type. *)
Lemma callStub_idle (c : Invocation) (w : World) :
  wellFormed c →
  isSettingMockValue (mock w) = Some false →
  callStub c w
  = cast (returnType c)
      (Map_get (mockReturnValues (mock w)) (Some (signature c))) w.
Proof.
  intros Hc Hidle. unfold callStub.
  erewrite App_bind_Ok; [done|].
  apply onMock_Return. rewrite intercept_eq by done. by rewrite Hidle.
Qed.

(** ** [Injector.getInjector] *)

(** X12. [getInjector()] never fails and never answers [null]; asked again it
    gives the same injector and changes nothing, so a real injector is
    created at most once; and a mock injector, once installed, is
    answered as it is, without a real injector being created. *)
Theorem getInjector_singleton (w : World) :
  ∃ i w1,
    Injector_getInjector w = (Ok i, w1) ∧
    i ≠ null ∧
    Injector_getInjector w1 = (Ok i, w1) ∧
    mock w1 = mock w ∧
    (Injector_mockInjector w ≠ null → i = Injector_mockInjector w ∧ w1 = w).
Proof.
  unfold Injector_getInjector.
  destruct (decide (Injector_mockInjector w ≠ null)) as [Hmock|Hmock].
  - exists (Injector_mockInjector w), w.
    erewrite App_bind_Ok; [|reflexivity]. rewrite decide_True by done.
    done.
  - destruct (decide (Injector_injector w = null)) as [Hreal|Hreal].
    + eexists _, _.
      erewrite App_bind_Ok; [|reflexivity]. rewrite decide_False by done.
      erewrite App_bind_Ok; [|reflexivity]. rewrite decide_True by done.
      split; [reflexivity|]. cbn. split; [done|]. split; [|split; [done|]].
      * erewrite App_bind_Ok; [|reflexivity]. cbn.
        rewrite decide_False by done.
        erewrite App_bind_Ok; [|reflexivity]. cbn. done.
      * intros ?. done.
    + exists (Injector_injector w), w.
      erewrite App_bind_Ok; [|reflexivity]. rewrite decide_False by done.
      erewrite App_bind_Ok; [|reflexivity]. rewrite decide_False by done.
      done.
Qed.

(** ** [TodoController] with stubs *)

Lemma Map_get_present (m : gmap (option string) Object)
    (key : option string) (v : Object) :
  m !! key = Some v → Map_get m key = v.
Proof. unfold Map_get. by intros ->. Qed.

Lemma classOf_instance (w : World) (o : Object) (c : Class) :
  classOf w o = Some c → o ≠ null.
Proof. by destruct o. Qed.

Lemma conforms_Object (w : World) (o : Object) (c : Class) :
  classOf w o = Some c → conforms w o Object_type = true.
Proof.
  destruct o; try done. cbn. intros ->.
  apply bool_decide_eq_true. by right.
Qed.

Lemma conforms_stub (w : World) (o : Object) (t t' : Type_) :
  classOf w o = Some (Stub_class t) →
  getName t = getName t' →
  conforms w o t' = true.
Proof.
  destruct o; try done. cbn. intros -> Ht.
  apply bool_decide_eq_true. by left.
Qed.

Lemma getInjector_mock (w : World) :
  Injector_mockInjector w ≠ null →
  Injector_getInjector w = (Ok (Injector_mockInjector w), w).
Proof.
  intros Hmock. unfold Injector_getInjector.
  erewrite App_bind_Ok; [|reflexivity]. by rewrite decide_True.
Qed.

(** The constructor of [TodoController] when the mock injector is a stub
    and the provider is idle: the service is what the registry holds for
    [instantiate(TodoService)], if that is [null] or a [TodoService]. *)
Lemma new_TodoController_stub (w : World) (ti : Type_) :
  classOf w (Injector_mockInjector w) = Some (Stub_class ti) →
  isSettingMockValue (mock w) = Some false →
  new_TodoController w
  = cast TodoService_type
      (Map_get (mockReturnValues (mock w))
         (Some (serializeMethodCall "instantiate" [OString "TodoService"]))) w.
Proof.
  intros Hstub Hidle. unfold new_TodoController.
  erewrite App_bind_Ok;
    [|apply getInjector_mock; by eapply classOf_instance].
  unfold call_instantiate at 1.
  unfold mbind, App_mbind, App_bind at 1. rewrite Hstub.
  rewrite callStub_idle by done. unfold cast at 1.
  change (signature (instantiate_on (Injector_mockInjector w)
                       (OString "TodoService")))
    with (serializeMethodCall "instantiate" [OString "TodoService"]).
  set (v := Map_get _ _).
  destruct (conforms w v (returnType _)) eqn:Hconf; [done|].
  unfold cast. destruct v; try done.
  cbn in Hconf. cbn. destruct (classes w !! ref); [|done].
  apply bool_decide_eq_false in Hconf. destruct Hconf. by right.
Qed.



(** X15. Once [TodoController] holds a stub as its service and the provider
    is idle, [TodoController.addTodo(name)] returns normally and changes
    nothing, whatever the name and whatever is configured: the insertion
    into the database is not run. *)
Theorem stubbed_addTodo_changes_nothing (w : World) (ts : Type_)
    (service name : Object) :
  TodoController_self w = Some service →
  classOf w service = Some (Stub_class ts) →
  isSettingMockValue (mock w) = Some false →
  TodoController_addTodo name w = (Ok (), w).
Proof.
  intros Hself Hsvc Hidle. unfold TodoController_addTodo.
  erewrite App_bind_Ok;
    [|unfold TodoController_todoService; by rewrite Hself].
  unfold call_addTodo. rewrite Hsvc.
  erewrite App_bind_Ok; [done|].
  apply onMock_Return. rewrite intercept_eq by (by split).
  by rewrite Hidle.
Qed.

End Platform.

(** * Concrete runs *)

Lemma round_trip_witness :
  wellFormed getTodos_call ∧
  ∃ this1,
    configure exampleNullText getTodos_call mockTodoList new_MockProvider
      = (Return (), this1) ∧
    isSettingMockValue this1 = Some false ∧
    intercept exampleNullText getTodos_call this1 = (Return mockTodoList, this1).
Proof.
  split; [by split|].
  apply (round_trip exampleNullText new_MockProvider getTodos_call getTodos_call
           mockTodoList); by split.
Defined.

(** C3 as stated fails: on a fresh provider, idle and with an empty slot,
    [mockReturnValue] returns normally and has put the value into the
    registry under the [null] key. *)
Lemma mockReturnValue_idle_counterexample :
  (isSettingMockValue new_MockProvider ≠ Some true ∧
   serializedMethodCall new_MockProvider = None) ∧
  mockReturnValue null (OInteger 1) new_MockProvider
    = (Return (),
       {| mockReturnValues := {[None := OInteger 1]};
          isSettingMockValue := Some false;
          serializedMethodCall := None |}) ∧
  ¬ ∃ e this1,
      mockReturnValue null (OInteger 1) new_MockProvider = (Throw e, this1).
Proof.
  split; [by split|]. split; [reflexivity|].
  intros (e & this1 & H). discriminate H.
Qed.

Lemma mockReturnValue_never_raises_witness :
  (isSettingMockValue new_MockProvider ≠ Some true ∨
   serializedMethodCall new_MockProvider = None) ∧
  ∃ this1,
    mockReturnValue null (OInteger 1) new_MockProvider = (Return (), this1) ∧
    mockReturnValues this1
      = <[serializedMethodCall new_MockProvider := OInteger 1]>
          (mockReturnValues new_MockProvider) ∧
    isSettingMockValue this1 = Some false ∧
    serializedMethodCall this1 = None.
Proof.
  split; [by right|].
  apply (mockReturnValue_never_raises new_MockProvider null (OInteger 1)).
  by right.
Defined.

(** C4 as stated fails: on an idle provider [getTodos()] returns [null]
    when it has never been configured, and returns [null] after it has
    been configured to return [null]. *)
Lemma configured_null_counterexample :
  isSettingMockValue (milkProvider exampleNullText) = Some false ∧
  mockReturnValues (milkProvider exampleNullText)
    !! Some (signature exampleNullText getTodos_call) = None ∧
  (intercept exampleNullText getTodos_call
     (configure exampleNullText getTodos_call null
        (milkProvider exampleNullText)).2).1
  = (intercept exampleNullText getTodos_call (milkProvider exampleNullText)).1.
Proof. repeat split; vm_compute; reflexivity. Qed.

Lemma configured_null_indistinguishable_witness :
  wellFormed getTodos_call ∧
  isSettingMockValue (milkProvider exampleNullText) = Some false ∧
  mockReturnValues (milkProvider exampleNullText)
    !! Some (signature exampleNullText getTodos_call) = None ∧
  ∃ this1,
    configure exampleNullText getTodos_call null (milkProvider exampleNullText)
      = (Return (), this1) ∧
    mockReturnValues this1 !! Some (signature exampleNullText getTodos_call)
      = Some null ∧
    (intercept exampleNullText getTodos_call this1).1 = Return null ∧
    (intercept exampleNullText getTodos_call (milkProvider exampleNullText)).1
      = Return null.
Proof.
  split; [by split|]. split; [reflexivity|]. split; [vm_compute; reflexivity|].
  apply (configured_null_indistinguishable exampleNullText
           (milkProvider exampleNullText) getTodos_call).
  - by split.
  - reflexivity.
  - vm_compute; reflexivity.
Defined.

(** C5 as stated fails: the empty string is an argument whose string form
    is empty, and [getTodos()] and [getTodos('')] have one signature. *)
Lemma zero_argument_counterexample :
  String_valueOf exampleNullText (OString "") = "" ∧
  serializeMethodCall exampleNullText "getTodos" []
    = serializeMethodCall exampleNullText "getTodos" [OString ""].
Proof. split; reflexivity. Qed.

(** C6 as stated fails: the value a recording call returns is the value
    the idle call of [getTodos()] returns where it is configured to
    [null]. *)
Lemma recording_placeholder_counterexample :
  isSettingMockValue recordingProvider = Some true ∧
  isSettingMockValue (nullProvider exampleNullText) = Some false ∧
  mockReturnValues (nullProvider exampleNullText)
    !! Some (signature exampleNullText getTodos_call) = Some null ∧
  (intercept exampleNullText getTodos_call recordingProvider).1
  = (intercept exampleNullText getTodos_call (nullProvider exampleNullText)).1.
Proof. repeat split; vm_compute; reflexivity. Qed.

Lemma recording_call_returns_null_witness :
  wellFormed getTodos_call ∧
  isSettingMockValue recordingProvider = Some true ∧
  isSettingMockValue (nullProvider exampleNullText) = Some false ∧
  mockReturnValues (nullProvider exampleNullText)
    !! Some (signature exampleNullText getTodos_call) = Some null ∧
  ∃ this1,
    intercept exampleNullText getTodos_call recordingProvider
      = (Return null, this1) ∧
    serializedMethodCall this1 = Some (signature exampleNullText getTodos_call) ∧
    mockReturnValues this1 = mockReturnValues recordingProvider ∧
    isSettingMockValue this1 = Some true ∧
    intercept exampleNullText getTodos_call (nullProvider exampleNullText)
      = (Return null, nullProvider exampleNullText).
Proof.
  split; [by split|]. split; [reflexivity|]. split; [reflexivity|].
  split; [vm_compute; reflexivity|].
  apply (recording_call_returns_null exampleNullText recordingProvider
           (nullProvider exampleNullText) getTodos_call).
  - by split.
  - reflexivity.
  - reflexivity.
  - vm_compute; reflexivity.
Defined.

(** C7 as stated fails: after [setMock(); getTodos(); setMock()] the
    provider is recording and no call has been intercepted since the
    [setMock()] that began recording last, yet the pending slot still
    holds the signature of [getTodos()]. *)
Lemma pending_slot_counterexample :
  Forall wellFormedAction [DoSetMock; DoCall getTodos_call; DoSetMock] ∧
  run exampleNullText [DoSetMock; DoCall getTodos_call; DoSetMock]
      new_MockProvider
    = {| mockReturnValues := ∅;
         isSettingMockValue := Some true;
         serializedMethodCall := Some "getTodos()" |} ∧
  controllerRestarting [DoSetMock; DoCall getTodos_call; DoSetMock]
    = Recording 0.
Proof. split; [repeat constructor|]. split; reflexivity. Qed.

Lemma pending_slot_invariant_witness :
  Forall wellFormedAction
    [DoSetMock; DoCall getTodos_call; DoSetMock;
     DoCall (addTodo_call (OString "milk"))] ∧
  (serializedMethodCall
     (run exampleNullText
        [DoSetMock; DoCall getTodos_call; DoSetMock;
         DoCall (addTodo_call (OString "milk"))] new_MockProvider) ≠ None ↔
   isSettingMockValue
     (run exampleNullText
        [DoSetMock; DoCall getTodos_call; DoSetMock;
         DoCall (addTodo_call (OString "milk"))] new_MockProvider) = Some true ∧
   ∃ n, controller
          [DoSetMock; DoCall getTodos_call; DoSetMock;
           DoCall (addTodo_call (OString "milk"))] = Recording n ∧ 1 ≤ n).
Proof.
  assert (Forall wellFormedAction
            [DoSetMock; DoCall getTodos_call; DoSetMock;
             DoCall (addTodo_call (OString "milk"))]) as Hwf.
  { repeat constructor. }
  split; [exact Hwf|].
  exact (pending_slot_invariant exampleNullText _ Hwf).
Defined.

Lemma last_call_before_commit_wins_witness :
  Forall wellFormed [getTodos_call; addTodo_call (OString "eggs")] ∧
  wellFormed (addTodo_call (OString "milk")) ∧
  serializedMethodCall
    (run exampleNullText
       (DoSetMock ::
          (DoCall <$> ([getTodos_call; addTodo_call (OString "eggs")]
                       ++ [addTodo_call (OString "milk")])))
       new_MockProvider)
    = Some (signature exampleNullText (addTodo_call (OString "milk"))) ∧
  run exampleNullText
    (DoSetMock ::
       (DoCall <$> ([getTodos_call; addTodo_call (OString "eggs")]
                    ++ [addTodo_call (OString "milk")]))
       ++ [DoMockReturnValue null (OBoolean true)])
    new_MockProvider
    = {| mockReturnValues :=
           <[Some (signature exampleNullText (addTodo_call (OString "milk")))
               := OBoolean true]> (mockReturnValues new_MockProvider);
         isSettingMockValue := Some false;
         serializedMethodCall := None |}.
Proof.
  assert (Forall wellFormed [getTodos_call; addTodo_call (OString "eggs")])
    as Hcalls by (repeat constructor).
  assert (wellFormed (addTodo_call (OString "milk"))) as Hc by (by split).
  split; [exact Hcalls|]. split; [exact Hc|].
  exact (last_call_before_commit_wins exampleNullText new_MockProvider
           [getTodos_call; addTodo_call (OString "eggs")]
           (addTodo_call (OString "milk")) null (OBoolean true) Hcalls Hc).
Defined.

Lemma argument_order_sensitivity_witness :
  wellFormed (binary_call "m" (OInteger 1) (OInteger 2)) ∧
  wellFormed (binary_call "m" (OInteger 2) (OInteger 1)) ∧
  mockReturnValues new_MockProvider
    !! Some (signature exampleNullText (binary_call "m" (OInteger 2) (OInteger 1)))
    = None ∧
  signature exampleNullText (binary_call "m" (OInteger 1) (OInteger 2))
    ≠ signature exampleNullText (binary_call "m" (OInteger 2) (OInteger 1)) ∧
  ∃ this1,
    configure exampleNullText (binary_call "m" (OInteger 1) (OInteger 2))
      (OString "x") new_MockProvider = (Return (), this1) ∧
    isSettingMockValue this1 = Some false ∧
    mockReturnValues this1
      !! Some (signature exampleNullText
                 (binary_call "m" (OInteger 2) (OInteger 1))) = None ∧
    intercept exampleNullText (binary_call "m" (OInteger 2) (OInteger 1)) this1
      = (Return null, this1).
Proof.
  split; [by split|]. split; [by split|]. split; [reflexivity|].
  apply (argument_order_sensitivity exampleNullText new_MockProvider
           (binary_call "m" (OInteger 1) (OInteger 2))
           (binary_call "m" (OInteger 2) (OInteger 1))).
  - by split.
  - by split.
  - reflexivity.
  - reflexivity.
  - reflexivity.
  - reflexivity.
Defined.

Lemma serializer_not_injective_witness :
  wellFormed (unary_call "m" (OString "1,2")) ∧
  wellFormed (binary_call "m" (OString "1") (OString "2")) ∧
  isSettingMockValue (milkProvider exampleNullText) = Some false ∧
  mockReturnValues (milkProvider exampleNullText)
    !! Some (signature exampleNullText
               (binary_call "m" (OString "1") (OString "2"))) = None ∧
  [OString "1,2"] ≠ [OString "1"; OString "2"] ∧
  serializeMethodCall exampleNullText "m" [OString "1,2"]
    = serializeMethodCall exampleNullText "m" [OString "1"; OString "2"] ∧
  intercept exampleNullText (binary_call "m" (OString "1") (OString "2"))
    (milkProvider exampleNullText)
    = (Return null, milkProvider exampleNullText) ∧
  ∃ this1,
    configure exampleNullText (unary_call "m" (OString "1,2")) (OString "x")
      (milkProvider exampleNullText) = (Return (), this1) ∧
    intercept exampleNullText (binary_call "m" (OString "1") (OString "2")) this1
      = (Return (OString "x"), this1).
Proof.
  split; [by split|]. split; [by split|]. split; [reflexivity|].
  split; [vm_compute; reflexivity|].
  apply (serializer_not_injective exampleNullText (milkProvider exampleNullText)
           (unary_call "m" (OString "1,2"))
           (binary_call "m" (OString "1") (OString "2")) (OString "x")).
  - by split.
  - by split.
  - reflexivity.
  - reflexivity.
  - reflexivity.
  - reflexivity.
  - vm_compute; reflexivity.
Defined.

(** * Concrete runs of the further properties *)

Lemma calls_outside_recording_change_nothing_witness :
  isSettingMockValue (milkProvider exampleNullText) ≠ Some true ∧
  run exampleNullText
    (DoCall <$> [getTodos_call; addTodo_call (OString "eggs")])
    (milkProvider exampleNullText)
  = milkProvider exampleNullText.
Proof.
  assert (isSettingMockValue (milkProvider exampleNullText) ≠ Some true)
    as Hflag by (by vm_compute).
  split; [exact Hflag|].
  exact (calls_outside_recording_change_nothing exampleNullText
           [getTodos_call; addTodo_call (OString "eggs")]
           (milkProvider exampleNullText) Hflag).
Defined.


Lemma null_pointer_iff_never_configured_witness :
  wellFormed getTodos_call ∧
  ((intercept exampleNullText getTodos_call
      (run exampleNullText
         [DoCall getTodos_call; DoCall (addTodo_call (OString "milk"))]
         new_MockProvider)).1
   = Throw NullPointerException ↔
   Forall (λ a, isCall a = true)
     [DoCall getTodos_call; DoCall (addTodo_call (OString "milk"))]).
Proof.
  assert (wellFormed getTodos_call) as Hc by (by split).
  split; [exact Hc|].
  exact (null_pointer_iff_never_configured exampleNullText
           [DoCall getTodos_call; DoCall (addTodo_call (OString "milk"))]
           getTodos_call Hc).
Defined.

Lemma last_write_wins_witness :
  wellFormed getTodos_call ∧
  signature exampleNullText getTodos_call
    = signature exampleNullText getTodos_call ∧
  ∃ this1 this2,
    configure exampleNullText getTodos_call null new_MockProvider
      = (Return (), this1) ∧
    configure exampleNullText getTodos_call mockTodoList this1
      = (Return (), this2) ∧
    intercept exampleNullText getTodos_call this2 = (Return mockTodoList, this2) ∧
    mockReturnValues this2
      = <[Some (signature exampleNullText getTodos_call) := mockTodoList]>
          (mockReturnValues new_MockProvider).
Proof.
  assert (wellFormed getTodos_call) as Hc by (by split).
  split; [exact Hc|]. split; [reflexivity|].
  exact (last_write_wins exampleNullText new_MockProvider getTodos_call
           getTodos_call null mockTodoList Hc Hc eq_refl).
Defined.


Lemma empty_slot_commit_is_lost_witness :
  wellFormed (addTodo_call (OString "milk")) ∧
  serializedMethodCall (milkProvider exampleNullText) = None ∧
  ∃ this1,
    mockReturnValue null (OInteger 1) (milkProvider exampleNullText)
      = (Return (), this1) ∧
    intercept exampleNullText (addTodo_call (OString "milk")) this1
      = (Return
           (Map_get (mockReturnValues (milkProvider exampleNullText))
              (Some (signature exampleNullText
                       (addTodo_call (OString "milk"))))), this1).
Proof.
  assert (wellFormed (addTodo_call (OString "milk"))) as Hc by (by split).
  split; [exact Hc|]. split; [reflexivity|].
  exact (empty_slot_commit_is_lost exampleNullText
           (milkProvider exampleNullText) null (OInteger 1)
           (addTodo_call (OString "milk")) Hc eq_refl).
Defined.

Lemma session_commits_last_call_witness :
  Forall wellFormedAction
    [DoCall getTodos_call; DoSetMock;
     DoCall (addTodo_call (OString "milk")); DoSetMock] ∧
  Forall (λ a, isCommit a = false)
    [DoCall getTodos_call; DoSetMock;
     DoCall (addTodo_call (OString "milk")); DoSetMock] ∧
  run exampleNullText
    (DoSetMock ::
       [DoCall getTodos_call; DoSetMock;
        DoCall (addTodo_call (OString "milk")); DoSetMock]
       ++ [DoMockReturnValue null (OBoolean true)]) new_MockProvider
  = {| mockReturnValues :=
         <[default (serializedMethodCall new_MockProvider)
             (Some ∘ signature exampleNullText <$>
                lastCall [DoCall getTodos_call; DoSetMock;
                          DoCall (addTodo_call (OString "milk")); DoSetMock])
           := OBoolean true]> (mockReturnValues new_MockProvider);
       isSettingMockValue := Some false;
       serializedMethodCall := None |}.
Proof.
  assert (Forall wellFormedAction
            [DoCall getTodos_call; DoSetMock;
             DoCall (addTodo_call (OString "milk")); DoSetMock]) as Hwf
    by (repeat constructor).
  assert (Forall (λ a, isCommit a = false)
            [DoCall getTodos_call; DoSetMock;
             DoCall (addTodo_call (OString "milk")); DoSetMock]) as Hnc
    by (repeat constructor).
  split; [exact Hwf|]. split; [exact Hnc|].
  exact (session_commits_last_call exampleNullText new_MockProvider _
           null (OBoolean true) Hwf Hnc).
Defined.

Lemma signature_injective_without_commas_witness :
  occurs "("%char "addTodo" = false ∧
  Forall (λ x, occurs ","%char (String_valueOf exampleNullText x) = false)
    [OInteger 1] ∧
  Forall (λ x, occurs ","%char (String_valueOf exampleNullText x) = false)
    [OString "1"] ∧
  serializeMethodCall exampleNullText "addTodo" [OInteger 1]
    = serializeMethodCall exampleNullText "addTodo" [OString "1"] ∧
  "addTodo" = "addTodo" ∧
  (String_valueOf exampleNullText <$> [OInteger 1]
     = String_valueOf exampleNullText <$> [OString "1"] ∨
   ([OInteger 1] = [] ∧
    String_valueOf exampleNullText <$> [OString "1"] = [""]) ∨
   (String_valueOf exampleNullText <$> [OInteger 1] = [""] ∧
    [OString "1"] = [])).
Proof.
  assert (occurs "("%char "addTodo" = false) as Hm by reflexivity.
  assert (Forall (λ x, occurs ","%char (String_valueOf exampleNullText x)
                       = false) [OInteger 1]) as H1
    by (repeat constructor).
  assert (Forall (λ x, occurs ","%char (String_valueOf exampleNullText x)
                       = false) [OString "1"]) as H2
    by (repeat constructor).
  assert (serializeMethodCall exampleNullText "addTodo" [OInteger 1]
          = serializeMethodCall exampleNullText "addTodo" [OString "1"])
    as Hsig by reflexivity.
  split; [exact Hm|]. split; [exact H1|]. split; [exact H2|].
  split; [exact Hsig|].
  exact (signature_injective_without_commas exampleNullText "addTodo"
           "addTodo" [OInteger 1] [OString "1"] Hm Hm H1 H2 Hsig).
Defined.

(** The world the test class has arranged, the one a forgetful test has
    arranged, and the first after [TodoController.getTodos()] has run. *)
#[local] Abbreviation arrangedWorld :=
  (TodoControllerTest_arrange exampleNullText exampleToString exampleForName
     exampleNewInstance exampleQuery initialWorld).2.

#[local] Abbreviation partlyArrangedWorld :=
  (TodoControllerTest_arrange_partly exampleNullText exampleToString
     exampleQuery initialWorld).2.

#[local] Abbreviation usedWorld :=
  (TodoController_getTodos exampleNullText exampleToString exampleForName
     exampleNewInstance exampleQuery arrangedWorld).2.



Lemma stubbed_addTodo_changes_nothing_witness :
  TodoController_self usedWorld = Some (OInstance 2 "TodoService") ∧
  classOf usedWorld (OInstance 2 "TodoService")
    = Some (Stub_class TodoService_type) ∧
  isSettingMockValue (mock usedWorld) = Some false ∧
  TodoController_addTodo exampleNullText exampleToString exampleForName
    exampleNewInstance exampleInsert (OString "milk") usedWorld
  = (Ok (), usedWorld).
Proof.
  assert (TodoController_self usedWorld = Some (OInstance 2 "TodoService"))
    as H1 by (vm_compute; reflexivity).
  assert (classOf usedWorld (OInstance 2 "TodoService")
          = Some (Stub_class TodoService_type)) as H2
    by (vm_compute; reflexivity).
  assert (isSettingMockValue (mock usedWorld) = Some false) as H3
    by (vm_compute; reflexivity).
  do 3 (split; [assumption|]).
  exact (stubbed_addTodo_changes_nothing exampleNullText exampleToString
           exampleForName exampleNewInstance exampleInsert usedWorld
           TodoService_type (OInstance 2 "TodoService") (OString "milk")
           H1 H2 H3).
Defined.

Lemma slot_empty_outside_recording_witness :
  isSettingMockValue
    (run exampleNullText
       [DoCall getTodos_call; DoSetMock;
        DoCall (addTodo_call (OString "milk"));
        DoMockReturnValue null (OBoolean true); DoCall getTodos_call]
       new_MockProvider) ≠ Some true ∧
  serializedMethodCall
    (run exampleNullText
       [DoCall getTodos_call; DoSetMock;
        DoCall (addTodo_call (OString "milk"));
        DoMockReturnValue null (OBoolean true); DoCall getTodos_call]
       new_MockProvider) = None.
Proof.
  assert (isSettingMockValue
            (run exampleNullText
               [DoCall getTodos_call; DoSetMock;
                DoCall (addTodo_call (OString "milk"));
                DoMockReturnValue null (OBoolean true); DoCall getTodos_call]
               new_MockProvider) ≠ Some true) as Hflag by (by vm_compute).
  split; [exact Hflag|].
  exact (slot_empty_outside_recording exampleNullText _ Hflag).
Defined.
